(** * Working-hours gate: a decorator that forwards a call by time of day

    Shallow embedding of [testing.py]:

<<
    def check_working_hours(func):
        def wrapper(time):
            if 1100 < time < 2100:
                func(time)
            else:
                print("I'm unavailable!")
        return wrapper

    @check_working_hours
    def sweep_floors(time):
        print("I am at work")

    sweep_floors(2000)
>>

    The script has two kinds of observable step: calling a function object
    and writing to standard output.  Both are recorded, in order, in a
    trace that every computation threads through.  A computation may also
    raise (comparing an integer with [None] is a [TypeError]); the trace
    written so far survives the exception, as it does in Python. *)

From Stdlib Require Import ZArith String List Bool Lia.
Import ListNotations.

Local Open Scope string_scope.
Local Open Scope Z_scope.
Local Open Scope list_scope.

(** ** Values, events, computations *)

(** The objects the script handles: integers (unbounded, as Python's) and
    [None], which every function of the script returns. *)
Inductive value : Type :=
| VInt (n : Z)
| VNone.

Inductive exn : Type :=
| TypeError.

Inductive result (A : Type) : Type :=
| Ok (a : A)
| Raise (e : exn).

Arguments Ok {A} a.
Arguments Raise {A} e.

Inductive event : Type :=
| EvCall (fn : string) (arg : value)
| EvWrite (text : string).

Definition trace := list event.

Module Py.

(** A computation reads the trace so far and returns its outcome together
    with the extended trace. *)
Definition M (A : Type) : Type := trace -> result A * trace.

Definition ret {A} (a : A) : M A := fun w => (Ok a, w).

Definition raise {A} (e : exn) : M A := fun w => (Raise e, w).

Definition bind {A B} (m : M A) (k : A -> M B) : M B :=
  fun w =>
    match m w with
    | (Ok a, w') => k a w'
    | (Raise e, w') => (Raise e, w')
    end.

Definition emit (e : event) : M unit := fun w => (Ok tt, w ++ [e]).

End Py.

Import Py.

Declare Scope py_scope.
Delimit Scope py_scope with py.
Notation "x <- m ;; k" := (bind m (fun x => k))
  (at level 61, m at next level, right associativity) : py_scope.
Notation "m ;; k" := (bind m (fun _ => k))
  (at level 61, right associativity) : py_scope.
Local Open Scope py_scope.

(** The line terminator [print] appends. *)
Definition newline : string := String (Ascii.ascii_of_nat 10) EmptyString.

(** [print(s)] for a string literal [s]: one write of [s] and the
    terminator. *)
Definition print (s : string) : M unit := emit (EvWrite (s ++ newline)%string).

(** [a < b]: defined between integers, a [TypeError] as soon as one side
    is [None]. *)
Definition py_lt (a b : value) : M bool :=
  match a, b with
  | VInt x, VInt y => ret (x <? y)
  | _, _ => raise TypeError
  end.

(** A function object of one parameter: its [__name__] and its body. *)
Record pyfun : Type := mkfun {
  fn_name : string;
  fn_body : value -> M value
}.

(** [f(v)]: the call is recorded, then the body runs. *)
Definition call (f : pyfun) (v : value) : M value :=
  emit (EvCall (fn_name f) v) ;; fn_body f v.

(** ** The script *)

(** [1100 < time < 2100]: a chained comparison, [1100 < time and
    time < 2100] with [time] evaluated once and the second comparison
    skipped when the first is false. *)
Definition working_hours (time : value) : M bool :=
  lo <- py_lt (VInt 1100) time ;;
  if lo then py_lt time (VInt 2100) else ret false.

(** The inner [wrapper(time)], closed over [func]. *)
Definition wrapper (func : pyfun) (time : value) : M value :=
  c <- working_hours time ;;
  if c then
    (call func time ;; ret VNone)
  else
    (print "I'm unavailable!" ;; ret VNone).

(** [check_working_hours(func)] builds the closure and returns it; building
    it neither calls [func] nor writes anything. *)
Definition check_working_hours (func : pyfun) : pyfun :=
  {| fn_name := "wrapper"; fn_body := wrapper func |}.

(** The function the [def sweep_floors] statement creates, before the
    decorator is applied to it. *)
Definition sweep_floors_def : pyfun :=
  {| fn_name := "sweep_floors";
     fn_body := fun _time => print "I am at work" ;; ret VNone |}.

(** What the name [sweep_floors] is bound to once the decorated definition
    has run. *)
Definition sweep_floors : pyfun := check_working_hours sweep_floors_def.

(** The last statement of the module, [sweep_floors(2000)]. *)
Definition main : M value := call sweep_floors (VInt 2000).

(** ** Observations on traces *)

(** The text standard output has received. *)
Fixpoint stdout_of (w : trace) : string :=
  match w with
  | [] => ""
  | EvWrite s :: w' => (s ++ stdout_of w')%string
  | EvCall _ _ :: w' => stdout_of w'
  end.

Definition is_call_of (name : string) (e : event) : bool :=
  match e with
  | EvCall fn _ => String.eqb fn name
  | EvWrite _ => false
  end.

(** How many times the function named [name] has been called. *)
Definition calls_of (name : string) (w : trace) : nat :=
  List.length (filter (is_call_of name) w).

(** The lines of a text, each ended by the terminator; an unterminated
    tail counts as a last line. *)
Fixpoint lines_from (cur : string) (s : string) : list string :=
  match s with
  | EmptyString =>
      match cur with
      | EmptyString => []
      | _ => [cur]
      end
  | String c s' =>
      if Ascii.eqb c (Ascii.ascii_of_nat 10)
      then cur :: lines_from "" s'
      else lines_from (cur ++ String c EmptyString)%string s'
  end.

Definition lines (s : string) : list string := lines_from "" s.

(** Running a computation from the start of the program. *)
Definition run {A} (m : M A) : result A * trace := m [].

(** The events a call appends when it starts from the trace [w]. *)
Definition appended (w : trace) (m : M value) : trace :=
  skipn (List.length w) (snd (m w)).

(** A block of expression statements run one after the other; a raise in
    one of them skips the rest. *)
Definition in_sequence (ms : list (M value)) : M value :=
  fold_right (fun m k => m ;; k) (ret VNone) ms.

(** The open interval of the gate, decided on an integer. *)
Definition in_hours (t : Z) : bool := (1100 <? t) && (t <? 2100).

(** A function whose body does not call the function itself again: running
    the body leaves the number of recorded calls of its name unchanged. *)
Definition calls_nothing_of_its_name (f : pyfun) : Prop :=
  forall v w,
    calls_of (fn_name f) (snd (fn_body f v w)) = calls_of (fn_name f) w.

(** ** Basic facts *)

Lemma stdout_of_app (w1 w2 : trace) :
  stdout_of (w1 ++ w2) = (stdout_of w1 ++ stdout_of w2)%string.
Proof.
  induction w1 as [|e w1 IH]; simpl.
  - reflexivity.
  - destruct e as [fn arg|text]; rewrite IH.
    + reflexivity.
    + clear IH. induction text as [|c text IHt]; simpl.
      * reflexivity.
      * now rewrite IHt.
Qed.

Lemma calls_of_app (name : string) (w1 w2 : trace) :
  calls_of name (w1 ++ w2) = (calls_of name w1 + calls_of name w2)%nat.
Proof.
  unfold calls_of. now rewrite filter_app, length_app.
Qed.

Lemma calls_of_call (name fn : string) (v : value) :
  calls_of name [EvCall fn v] = if String.eqb fn name then 1%nat else 0%nat.
Proof.
  unfold calls_of. simpl. now destruct (String.eqb fn name).
Qed.

Lemma calls_of_write (name text : string) :
  calls_of name [EvWrite text] = 0%nat.
Proof. reflexivity. Qed.

Lemma skipn_length_app (w out : trace) :
  skipn (List.length w) (w ++ out) = out.
Proof.
  induction w as [|e w IH]; simpl; auto.
Qed.

(** ** The check *)

Lemma in_hours_iff (t : Z) : in_hours t = true <-> 1100 < t < 2100.
Proof.
  unfold in_hours. rewrite andb_true_iff, !Z.ltb_lt. tauto.
Qed.

Lemma in_hours_false_iff (t : Z) :
  in_hours t = false <-> t <= 1100 \/ 2100 <= t.
Proof.
  unfold in_hours. rewrite andb_false_iff, !Z.ltb_ge. tauto.
Qed.

(** On an integer the check succeeds with the interval test and leaves
    the trace as it found it. *)
Lemma working_hours_int (t : Z) (w : trace) :
  working_hours (VInt t) w = (Ok (in_hours t), w).
Proof.
  unfold working_hours, in_hours, py_lt, bind, ret.
  now destruct (1100 <? t).
Qed.

Lemma working_hours_none (w : trace) :
  working_hours VNone w = (Raise TypeError, w).
Proof. reflexivity. Qed.

(** ** The gate over an arbitrary wrapped function *)

Section Gate.

Variable func : pyfun.

Lemma wrapper_int (t : Z) (w : trace) :
  wrapper func (VInt t) w =
    if in_hours t
    then (call func (VInt t) ;; ret VNone) w
    else (Ok VNone, w ++ [EvWrite ("I'm unavailable!" ++ newline)%string]).
Proof.
  unfold wrapper at 1, bind at 1. rewrite working_hours_int.
  now destruct (in_hours t).
Qed.

Lemma call_gated_int (t : Z) (w : trace) :
  call (check_working_hours func) (VInt t) w =
    if in_hours t
    then (call func (VInt t) ;; ret VNone) (w ++ [EvCall "wrapper" (VInt t)])
    else (Ok VNone,
          w ++ [EvCall "wrapper" (VInt t);
                EvWrite ("I'm unavailable!" ++ newline)%string]).
Proof.
  unfold call at 1, bind at 1, emit. simpl fn_body. simpl fn_name.
  rewrite wrapper_int. destruct (in_hours t); [reflexivity|].
  now rewrite <- app_assoc.
Qed.

End Gate.

(** ** The decorated [sweep_floors] *)

Lemma call_sweep_floors_def (v : value) (w : trace) :
  call sweep_floors_def v w =
    (Ok VNone,
     w ++ [EvCall "sweep_floors" v;
           EvWrite ("I am at work" ++ newline)%string]).
Proof.
  cbv [call bind emit print ret sweep_floors_def fn_name fn_body].
  now rewrite <- app_assoc.
Qed.

Lemma call_sweep_floors (t : Z) (w : trace) :
  call sweep_floors (VInt t) w =
    (Ok VNone,
     w ++ (if in_hours t
           then [EvCall "wrapper" (VInt t);
                 EvCall "sweep_floors" (VInt t);
                 EvWrite ("I am at work" ++ newline)%string]
           else [EvCall "wrapper" (VInt t);
                 EvWrite ("I'm unavailable!" ++ newline)%string])).
Proof.
  unfold sweep_floors. rewrite call_gated_int.
  destruct (in_hours t); [|reflexivity].
  unfold bind at 1. rewrite call_sweep_floors_def.
  unfold ret. now rewrite <- app_assoc.
Qed.

(** ** The gated operation on integers *)

(** C1. For every integer [t] with [1100 < t < 2100], calling the gated
    [sweep_floors] with [t] returns [None] after calling the wrapped
    function once with [t]; the call writes the single line
    [I am at work] and nothing else, so no unavailability message. *)
Theorem gated_call_in_hours (t : Z) (w : trace) :
  1100 < t < 2100 ->
  call sweep_floors (VInt t) w =
    (Ok VNone,
     w ++ [EvCall "wrapper" (VInt t);
           EvCall "sweep_floors" (VInt t);
           EvWrite ("I am at work" ++ newline)%string])
  /\ calls_of "sweep_floors" (appended w (call sweep_floors (VInt t))) = 1%nat
  /\ lines (stdout_of (appended w (call sweep_floors (VInt t))))
     = ["I am at work"].
Proof.
  intros Ht. apply in_hours_iff in Ht.
  assert (E := call_sweep_floors t w). rewrite Ht in E.
  split; [exact E|].
  unfold appended. rewrite E. cbn [snd]. rewrite skipn_length_app.
  split; reflexivity.
Qed.

Lemma gated_call_in_hours_witness :
  1100 < 1500 < 2100
  /\ call sweep_floors (VInt 1500) [] =
       (Ok VNone,
        [] ++ [EvCall "wrapper" (VInt 1500);
               EvCall "sweep_floors" (VInt 1500);
               EvWrite ("I am at work" ++ newline)%string])
  /\ calls_of "sweep_floors" (appended [] (call sweep_floors (VInt 1500)))
     = 1%nat
  /\ lines (stdout_of (appended [] (call sweep_floors (VInt 1500))))
     = ["I am at work"].
Proof.
  split; [lia | apply (gated_call_in_hours 1500 []); lia].
Defined.

(** C2. For every integer [t] with [t <= 1100] or [t >= 2100], calling the
    gated operation with [t] writes the single line [I'm unavailable!] and
    returns [None]; what happens does not depend on the wrapped function,
    which is not called: for [sweep_floors] no call of the wrapped function
    is recorded and its line is not written. *)
Theorem gated_call_off_hours (func : pyfun) (t : Z) (w : trace) :
  t <= 1100 \/ t >= 2100 ->
  call (check_working_hours func) (VInt t) w =
    (Ok VNone,
     w ++ [EvCall "wrapper" (VInt t);
           EvWrite ("I'm unavailable!" ++ newline)%string])
  /\ lines (stdout_of (appended w (call (check_working_hours func) (VInt t))))
     = ["I'm unavailable!"]
  /\ calls_of "sweep_floors" (appended w (call sweep_floors (VInt t))) = 0%nat.
Proof.
  intros Ht.
  assert (Hf : in_hours t = false) by (apply in_hours_false_iff; lia).
  assert (E : forall f, call (check_working_hours f) (VInt t) w =
                (Ok VNone,
                 w ++ [EvCall "wrapper" (VInt t);
                       EvWrite ("I'm unavailable!" ++ newline)%string])).
  { intros f. rewrite call_gated_int. now rewrite Hf. }
  split; [apply E|].
  unfold appended, sweep_floors. rewrite !E. cbn [snd].
  rewrite skipn_length_app. split; reflexivity.
Qed.

Lemma gated_call_off_hours_witness :
  (900 <= 1100 \/ 900 >= 2100)
  /\ call (check_working_hours sweep_floors_def) (VInt 900) [] =
       (Ok VNone,
        [] ++ [EvCall "wrapper" (VInt 900);
               EvWrite ("I'm unavailable!" ++ newline)%string])
  /\ lines (stdout_of (appended []
              (call (check_working_hours sweep_floors_def) (VInt 900))))
     = ["I'm unavailable!"]
  /\ calls_of "sweep_floors" (appended [] (call sweep_floors (VInt 900)))
     = 0%nat.
Proof.
  split; [lia | apply (gated_call_off_hours sweep_floors_def 900 []); lia].
Defined.

(** C3. For every integer input the gate first evaluates its condition,
    which writes nothing and calls nothing, and the outcome selects what
    follows: the wrapped function is called exactly when
    [1100 < time < 2100], and otherwise the result is the unavailability
    line whatever the wrapped function is.  That the check comes first
    shows where the check itself fails: on [None] the comparison raises and
    the wrapped function has not been called. *)
Theorem check_decides_call (func : pyfun) (t : Z) (w : trace) :
  working_hours (VInt t) (w ++ [EvCall "wrapper" (VInt t)])
    = (Ok (in_hours t), w ++ [EvCall "wrapper" (VInt t)])
  /\ (in_hours t = true <-> 1100 < t < 2100)
  /\ call (check_working_hours func) (VInt t) w =
       (if in_hours t
        then (call func (VInt t) ;; ret VNone)
               (w ++ [EvCall "wrapper" (VInt t)])
        else (Ok VNone,
              w ++ [EvCall "wrapper" (VInt t);
                    EvWrite ("I'm unavailable!" ++ newline)%string]))
  /\ call (check_working_hours func) VNone w =
       (Raise TypeError, w ++ [EvCall "wrapper" VNone]).
Proof.
  split; [apply working_hours_int|].
  split; [apply in_hours_iff|].
  split; [apply call_gated_int|].
  reflexivity.
Qed.

(** C4. The four boundary inputs: [1100] and [2100] take the
    unavailability branch (both bounds are exclusive), [1101] and [2099]
    reach the wrapped function and write [I am at work]. *)
Theorem gated_call_boundaries :
  run (call sweep_floors (VInt 1100)) =
    (Ok VNone,
     [EvCall "wrapper" (VInt 1100);
      EvWrite ("I'm unavailable!" ++ newline)%string])
  /\ run (call sweep_floors (VInt 1101)) =
    (Ok VNone,
     [EvCall "wrapper" (VInt 1101);
      EvCall "sweep_floors" (VInt 1101);
      EvWrite ("I am at work" ++ newline)%string])
  /\ run (call sweep_floors (VInt 2099)) =
    (Ok VNone,
     [EvCall "wrapper" (VInt 2099);
      EvCall "sweep_floors" (VInt 2099);
      EvWrite ("I am at work" ++ newline)%string])
  /\ run (call sweep_floors (VInt 2100)) =
    (Ok VNone,
     [EvCall "wrapper" (VInt 2100);
      EvWrite ("I'm unavailable!" ++ newline)%string])
  /\ map (fun t => lines (stdout_of (snd (run (call sweep_floors (VInt t))))))
         [1100; 1101; 2099; 2100]
     = [["I'm unavailable!"]; ["I am at work"]; ["I am at work"];
        ["I'm unavailable!"]].
Proof.
  repeat split; reflexivity.
Qed.

(** C5. Running the module calls the gated operation once, with [2000];
    [1100 < 2000 < 2100] holds, and the whole output of the program is the
    single line [I am at work]. *)
Theorem main_output :
  run main =
    (Ok VNone,
     [EvCall "wrapper" (VInt 2000);
      EvCall "sweep_floors" (VInt 2000);
      EvWrite ("I am at work" ++ newline)%string])
  /\ calls_of "wrapper" (snd (run main)) = 1%nat
  /\ 1100 < 2000 < 2100
  /\ stdout_of (snd (run main)) = ("I am at work" ++ newline)%string
  /\ lines (stdout_of (snd (run main))) = ["I am at work"].
Proof.
  repeat split; reflexivity.
Qed.

(** ** The wrapped function on its own *)

(** C6. The undecorated [sweep_floors], for every integer argument,
    returns [None] after writing the one line [I am at work], from any
    trace; its body is the same computation for every argument, integer or
    not, so the argument is unused. *)
Theorem sweep_floors_def_unconditional (t : Z) (w : trace) :
  call sweep_floors_def (VInt t) w =
    (Ok VNone,
     w ++ [EvCall "sweep_floors" (VInt t);
           EvWrite ("I am at work" ++ newline)%string])
  /\ lines (stdout_of (appended w (call sweep_floors_def (VInt t))))
     = ["I am at work"]
  /\ (forall v : value,
        fn_body sweep_floors_def v = fn_body sweep_floors_def (VInt t)).
Proof.
  split; [apply call_sweep_floors_def|].
  split; [|reflexivity].
  unfold appended. rewrite call_sweep_floors_def. cbn [snd].
  now rewrite skipn_length_app.
Qed.

Lemma sweep_floors_def_calls_nothing :
  calls_nothing_of_its_name sweep_floors_def.
Proof.
  intros v w.
  cbv [sweep_floors_def fn_body fn_name bind print emit ret snd].
  now rewrite calls_of_app, calls_of_write, Nat.add_0_r.
Qed.

(** ** Shape of the output, determinism, absence of errors *)

(** C7. For every integer input a call of the gated operation appends
    exactly one terminated line to standard output, and the line is
    [I am at work] or [I'm unavailable!]. *)
Theorem gated_call_one_line (t : Z) (w : trace) :
  exists line : string,
    stdout_of (snd (call sweep_floors (VInt t) w))
      = (stdout_of w ++ line ++ newline)%string
    /\ lines (stdout_of (appended w (call sweep_floors (VInt t)))) = [line]
    /\ (line = "I am at work" \/ line = "I'm unavailable!").
Proof.
  exists (if in_hours t then "I am at work" else "I'm unavailable!").
  unfold appended. rewrite call_sweep_floors. cbn [snd].
  rewrite skipn_length_app, stdout_of_app.
  destruct (in_hours t); repeat split; auto.
Qed.

(** C8. The gated operation keeps no state: from any two earlier traces a
    call with the same [t] has the same result and appends the same events,
    those of a call at the start of the program; and a second call right
    after the first repeats them. *)
Theorem gated_call_stateless (t : Z) (w1 w2 : trace) :
  fst (call sweep_floors (VInt t) w1) = fst (call sweep_floors (VInt t) w2)
  /\ appended w1 (call sweep_floors (VInt t))
     = appended w2 (call sweep_floors (VInt t))
  /\ call sweep_floors (VInt t) w1 =
       (fst (run (call sweep_floors (VInt t))),
        w1 ++ snd (run (call sweep_floors (VInt t))))
  /\ (call sweep_floors (VInt t) ;; call sweep_floors (VInt t)) w1 =
       (fst (run (call sweep_floors (VInt t))),
        w1 ++ snd (run (call sweep_floors (VInt t)))
           ++ snd (run (call sweep_floors (VInt t)))).
Proof.
  unfold appended, run, bind. rewrite !call_sweep_floors. cbn [fst snd].
  rewrite !skipn_length_app, app_nil_l, app_assoc.
  repeat split; reflexivity.
Qed.

(** C9. Every integer is a legal input: a call of the gated operation
    with an integer returns [None] normally, from any trace; it never
    raises. *)
Theorem gated_call_never_raises (t : Z) (w : trace) :
  fst (call sweep_floors (VInt t) w) = Ok VNone
  /\ (forall e : exn, fst (call sweep_floors (VInt t) w) <> Raise e).
Proof.
  rewrite call_sweep_floors. cbn [fst]. split; [reflexivity|discriminate].
Qed.

(** The error branch exists: outside the integers the comparison raises. *)
Example gated_call_none_raises :
  run (call sweep_floors VNone) = (Raise TypeError, [EvCall "wrapper" VNone]).
Proof. reflexivity. Qed.

(** Discarding the result of a call keeps the trace of the call: the one
    recorded call followed by what the body does. *)
Lemma call_discard_trace (func : pyfun) (v : value) (w : trace) :
  snd ((call func v ;; ret VNone) w)
    = snd (fn_body func v (w ++ [EvCall (fn_name func) v])).
Proof.
  cbv [call bind emit ret].
  now destruct (fn_body func v (w ++ [EvCall (fn_name func) v])) as [[a|e] w'].
Qed.

(** C10. One call of the gated callable with an integer calls the wrapped
    function once when [1100 < time < 2100] and not at all otherwise, for
    every wrapped function that is not itself named [wrapper] and whose
    body does not call it again. *)
Theorem wrapped_called_at_most_once (func : pyfun) (t : Z) (w : trace) :
  fn_name func <> "wrapper" ->
  calls_nothing_of_its_name func ->
  calls_of (fn_name func) (snd (call (check_working_hours func) (VInt t) w))
    = (calls_of (fn_name func) w + (if in_hours t then 1 else 0))%nat
  /\ (in_hours t = true <-> 1100 < t < 2100).
Proof.
  intros Hname Hbody. split; [|apply in_hours_iff].
  assert (Hw : String.eqb "wrapper" (fn_name func) = false).
  { apply String.eqb_neq. congruence. }
  rewrite call_gated_int. destruct (in_hours t).
  - rewrite call_discard_trace, Hbody.
    rewrite !calls_of_app, !calls_of_call, Hw, String.eqb_refl.
    lia.
  - cbn [snd].
    change [EvCall "wrapper" (VInt t);
            EvWrite ("I'm unavailable!" ++ newline)%string]
      with ([EvCall "wrapper" (VInt t)]
              ++ [EvWrite ("I'm unavailable!" ++ newline)%string]).
    rewrite !calls_of_app, calls_of_call, calls_of_write, Hw.
    lia.
Qed.

Lemma wrapped_called_at_most_once_witness :
  fn_name sweep_floors_def <> "wrapper"
  /\ calls_nothing_of_its_name sweep_floors_def
  /\ calls_of (fn_name sweep_floors_def)
       (snd (call (check_working_hours sweep_floors_def) (VInt 2000) []))
     = (calls_of (fn_name sweep_floors_def) []
        + (if in_hours 2000 then 1 else 0))%nat
  /\ (in_hours 2000 = true <-> 1100 < 2000 < 2100).
Proof.
  split; [discriminate|].
  split; [exact sweep_floors_def_calls_nothing|].
  apply (wrapped_called_at_most_once sweep_floors_def 2000 []).
  - discriminate.
  - exact sweep_floors_def_calls_nothing.
Defined.

(** ** Further properties of the gate *)

(** Discarding a result twice is discarding it once. *)
Lemma discard_twice (m : M value) (w : trace) :
  ((m ;; ret VNone) ;; ret VNone) w = (m ;; ret VNone) w.
Proof.
  cbv [bind ret]. now destruct (m w) as [[a|e] w'].
Qed.

(** X1. The wrapper drops what the wrapped function returns: within the
    hours, when the wrapped function returns a value [v] normally, the
    gated call returns [None], with the trace the wrapped call left. *)
Theorem gated_call_discards_result
    (func : pyfun) (t : Z) (v : value) (w w' : trace) :
  1100 < t < 2100 ->
  call func (VInt t) (w ++ [EvCall "wrapper" (VInt t)]) = (Ok v, w') ->
  call (check_working_hours func) (VInt t) w = (Ok VNone, w').
Proof.
  intros Ht Hf. apply in_hours_iff in Ht.
  rewrite call_gated_int, Ht. unfold bind at 1. now rewrite Hf.
Qed.

Lemma gated_call_discards_result_witness :
  1100 < 1500 < 2100
  /\ call (mkfun "seven" (fun _ => ret (VInt 7))) (VInt 1500)
       ([] ++ [EvCall "wrapper" (VInt 1500)])
     = (Ok (VInt 7),
        [EvCall "wrapper" (VInt 1500); EvCall "seven" (VInt 1500)])
  /\ call (check_working_hours (mkfun "seven" (fun _ => ret (VInt 7))))
       (VInt 1500) []
     = (Ok VNone,
        [EvCall "wrapper" (VInt 1500); EvCall "seven" (VInt 1500)]).
Proof.
  split; [lia|]. split; [reflexivity|].
  apply (gated_call_discards_result
           (mkfun "seven" (fun _ => ret (VInt 7))) 1500 (VInt 7) []);
    [lia | reflexivity].
Defined.

(** X2. The wrapper catches nothing: within the hours, an exception the
    wrapped function raises leaves the gated call as the same exception,
    with the trace as the wrapped call left it and no unavailability
    line added. *)
Theorem gated_call_propagates_exception
    (func : pyfun) (t : Z) (e : exn) (w w' : trace) :
  1100 < t < 2100 ->
  call func (VInt t) (w ++ [EvCall "wrapper" (VInt t)]) = (Raise e, w') ->
  call (check_working_hours func) (VInt t) w = (Raise e, w').
Proof.
  intros Ht Hf. apply in_hours_iff in Ht.
  rewrite call_gated_int, Ht. unfold bind at 1. now rewrite Hf.
Qed.

Lemma gated_call_propagates_exception_witness :
  1100 < 1500 < 2100
  /\ call (mkfun "boom" (fun _ => raise TypeError)) (VInt 1500)
       ([] ++ [EvCall "wrapper" (VInt 1500)])
     = (Raise TypeError,
        [EvCall "wrapper" (VInt 1500); EvCall "boom" (VInt 1500)])
  /\ call (check_working_hours (mkfun "boom" (fun _ => raise TypeError)))
       (VInt 1500) []
     = (Raise TypeError,
        [EvCall "wrapper" (VInt 1500); EvCall "boom" (VInt 1500)]).
Proof.
  split; [lia|]. split; [reflexivity|].
  apply (gated_call_propagates_exception
           (mkfun "boom" (fun _ => raise TypeError)) 1500 TypeError []);
    [lia | reflexivity].
Defined.

(** X3. Applying the decorator twice gates once: off hours the outer
    wrapper answers alone, with one unavailability line and no call of the
    inner wrapper; within the hours both wrappers are entered and the
    wrapped function is called once.  For [sweep_floors] the text written
    is the same as with one application. *)
Theorem gate_applied_twice (func : pyfun) (t : Z) (w : trace) :
  call (check_working_hours (check_working_hours func)) (VInt t) w =
    (if in_hours t
     then (call func (VInt t) ;; ret VNone)
            (w ++ [EvCall "wrapper" (VInt t); EvCall "wrapper" (VInt t)])
     else (Ok VNone,
           w ++ [EvCall "wrapper" (VInt t);
                 EvWrite ("I'm unavailable!" ++ newline)%string]))
  /\ stdout_of (appended w (call (check_working_hours sweep_floors) (VInt t)))
     = stdout_of (appended w (call sweep_floors (VInt t))).
Proof.
  assert (E : forall f,
    call (check_working_hours (check_working_hours f)) (VInt t) w =
      (if in_hours t
       then (call f (VInt t) ;; ret VNone)
              (w ++ [EvCall "wrapper" (VInt t); EvCall "wrapper" (VInt t)])
       else (Ok VNone,
             w ++ [EvCall "wrapper" (VInt t);
                   EvWrite ("I'm unavailable!" ++ newline)%string]))).
  { intros f. rewrite call_gated_int.
    destruct (in_hours t) eqn:Ht; [|reflexivity].
    unfold bind at 1. rewrite call_gated_int, Ht.
    change (((call f (VInt t) ;; ret VNone) ;; ret VNone)
              ((w ++ [EvCall "wrapper" (VInt t)])
                 ++ [EvCall "wrapper" (VInt t)])
            = (call f (VInt t) ;; ret VNone)
                (w ++ [EvCall "wrapper" (VInt t); EvCall "wrapper" (VInt t)])).
    rewrite discard_twice. now rewrite <- app_assoc. }
  split; [apply E|].
  unfold appended, sweep_floors at 1. rewrite E, call_sweep_floors.
  destruct (in_hours t).
  - unfold bind. rewrite call_sweep_floors_def. cbn [snd ret].
    rewrite <- app_assoc, !skipn_length_app. reflexivity.
  - cbn [snd]. rewrite !skipn_length_app. reflexivity.
Qed.

(** ** Any number of calls, one after the other *)

(** The trace of a block of gated calls: each call appends its own events,
    after those of the calls before it. *)
Lemma in_sequence_trace (ts : list Z) (w : trace) :
  in_sequence (map (fun t => call sweep_floors (VInt t)) ts) w =
    (Ok VNone,
     w ++ flat_map
            (fun t =>
               if in_hours t
               then [EvCall "wrapper" (VInt t);
                     EvCall "sweep_floors" (VInt t);
                     EvWrite ("I am at work" ++ newline)%string]
               else [EvCall "wrapper" (VInt t);
                     EvWrite ("I'm unavailable!" ++ newline)%string])
            ts).
Proof.
  revert w. induction ts as [|t ts IH]; intros w.
  - cbn. unfold ret. now rewrite app_nil_r.
  - cbn [map in_sequence fold_right flat_map].
    unfold bind at 1. rewrite call_sweep_floors.
    fold (in_sequence (map (fun t => call sweep_floors (VInt t)) ts)).
    rewrite IH. now rewrite <- app_assoc.
Qed.

(** X4. Calls of the gated [sweep_floors] in a row, with any integers:
    the block ends normally; it writes one line per call, in order, each
    the line its own argument selects; the wrapper is entered once per
    call and the wrapped function once per argument within the hours.
    Nothing carries over from one call to the next. *)
Theorem gated_calls_in_sequence (ts : list Z) (w : trace) :
  fst (in_sequence (map (fun t => call sweep_floors (VInt t)) ts) w)
    = Ok VNone
  /\ lines (stdout_of
       (appended w
          (in_sequence (map (fun t => call sweep_floors (VInt t)) ts))))
     = map (fun t => if in_hours t then "I am at work"
                     else "I'm unavailable!") ts
  /\ calls_of "wrapper"
       (appended w
          (in_sequence (map (fun t => call sweep_floors (VInt t)) ts)))
     = List.length ts
  /\ calls_of "sweep_floors"
       (appended w
          (in_sequence (map (fun t => call sweep_floors (VInt t)) ts)))
     = List.length (filter in_hours ts).
Proof.
  unfold appended. rewrite in_sequence_trace. cbn [fst snd].
  rewrite skipn_length_app. split; [reflexivity|].
  split; [|split].
  - induction ts as [|t ts IH]; [reflexivity|].
    cbn [flat_map map]. rewrite stdout_of_app. unfold lines in *.
    rewrite <- IH. clear IH.
    generalize (stdout_of
      (flat_map
         (fun t =>
            if in_hours t
            then [EvCall "wrapper" (VInt t);
                  EvCall "sweep_floors" (VInt t);
                  EvWrite ("I am at work" ++ newline)%string]
            else [EvCall "wrapper" (VInt t);
                  EvWrite ("I'm unavailable!" ++ newline)%string])
         ts)) as rest.
    intros rest. now destruct (in_hours t).
  - induction ts as [|t ts IH]; [reflexivity|].
    cbn [flat_map List.length]. rewrite calls_of_app, IH.
    now destruct (in_hours t).
  - induction ts as [|t ts IH]; [reflexivity|].
    cbn [flat_map filter]. rewrite calls_of_app, IH.
    now destruct (in_hours t).
Qed.

(** X5. The line written tells the hours: a call of the gated
    [sweep_floors] with an integer [t] writes [I am at work] if and only if
    [1100 < t < 2100], and [I'm unavailable!] if and only if [t <= 1100] or
    [2100 <= t]. *)
Theorem output_tells_hours (t : Z) (w : trace) :
  (lines (stdout_of (appended w (call sweep_floors (VInt t))))
     = ["I am at work"] <-> 1100 < t < 2100)
  /\ (lines (stdout_of (appended w (call sweep_floors (VInt t))))
     = ["I'm unavailable!"] <-> t <= 1100 \/ 2100 <= t).
Proof.
  unfold appended. rewrite call_sweep_floors. cbn [snd].
  rewrite skipn_length_app.
  rewrite <- in_hours_iff, <- in_hours_false_iff.
  destruct (in_hours t); cbn; split; split; intros H;
    try reflexivity; discriminate H.
Qed.
